(** * The Render Engine, physics demo: the [Toy] actor

    A shallow embedding of [demos/physics/toy.js].  A toy is a
    [PhysicsActor] holding a table of named components, two sprites, a
    mouse-button flag and a mouse joint; the engine delivers pointer events
    to the closures that the constructor registers.

    JavaScript objects are mutated in place and an exception does not undo the
    mutations made before it, so every method is a computation in a
    state-and-exception monad whose state survives a throw. *)

From Stdlib Require Import QArith Lqa.
From stdpp Require Import base strings gmap list.

Open Scope string_scope.

(** ** Geometry ([R.math.Point2D], [R.math.Vector2D])

    JavaScript numbers are modelled as exact rationals. *)

Record Point2D := mkPoint { px : Q; py : Q }.

Definition Vector2D := Point2D.

(** [R.math.Vector2D.create(p)] copies the coordinates of [p]. *)
Definition Vector2D_create (p : Point2D) : Vector2D := mkPoint (px p) (py p).

(** [v.sub(p)]: componentwise difference. *)
Definition Vector2D_sub (v : Vector2D) (p : Point2D) : Vector2D :=
  mkPoint (px v - px p)%Q (py v - py p)%Q.

(** [v.mul(k)]: scaling by a scalar. *)
Definition Vector2D_mul (v : Vector2D) (k : Q) : Vector2D :=
  mkPoint (px v * k)%Q (py v * k)%Q.

(** ** Sprites and components *)

Record Sprite := mkSprite {
  spriteResource : string;
  spriteName : string;
  spriteBoundingBox : Q * Q
}.

(** [R.components.render.Sprite]: a render component showing one sprite. *)
Record SpriteRender := mkSpriteRender {
  renderName : string;
  renderSprite : option Sprite
}.

(** A rigid body component.  [bodyForces] records, newest first, the calls
    [applyForce(force, location)] made on it. *)
Record BodyComponent := mkBody {
  bodyShape : string;
  bodyScale : Q;
  bodyRender : option SpriteRender;
  bodyForces : list (Vector2D * Point2D)
}.

(** Modelled from the spec: the pointer constraint
    ([R.components.physics.MouseJoint], not part of this file).  It is linked
    to a body component by name; [jointStarted] tells whether it is inserted
    in the physics world and [jointTarget] is the point last given to
    [updateTarget]. *)
Record MouseJoint := mkJoint {
  jointName : string;
  jointBody : string;
  jointStarted : bool;
  jointTarget : option Point2D
}.

Inductive Component :=
| DomRender (name : string)
| MouseInput (name : string)
| Body (b : BodyComponent)
| Joint (j : MouseJoint).

(** The closures registered with [addEvent]; each one calls a method of the
    toy it captured in [self]. *)
Inductive Handler :=
| CallMouseOver (state : bool)
| CallMouseDown (state : bool)
| CallMouseMove.

(** ** The toy object and the simulation it lives in *)

Record Toy := mkToy {
  actorName : string;
  element : option string;
  components : gmap string Component;
  attached : bool;
  rootBody : option string;
  sprites : list Sprite;
  renderScale : Q;
  mouseButtonDown : bool;
  mouseJoint : option string;
  boundingBox : option (Q * Q);
  position : Point2D;
  events : list (string * Handler)
}.

(** The physics world ([PhysicsDemo.simulation]): the joints inserted in it. *)
Record Simulation := mkSim { worldJoints : list string }.

Record State := mkState { this : Toy; simulation : Simulation }.

(** Field updates ([this.f = v]). *)

Definition set_actorName (v : string) (t : Toy) : Toy :=
  mkToy v (element t) (components t) (attached t) (rootBody t) (sprites t)
    (renderScale t) (mouseButtonDown t) (mouseJoint t) (boundingBox t)
    (position t) (events t).

Definition set_element (v : option string) (t : Toy) : Toy :=
  mkToy (actorName t) v (components t) (attached t) (rootBody t) (sprites t)
    (renderScale t) (mouseButtonDown t) (mouseJoint t) (boundingBox t)
    (position t) (events t).

Definition set_components (v : gmap string Component) (t : Toy) : Toy :=
  mkToy (actorName t) (element t) v (attached t) (rootBody t) (sprites t)
    (renderScale t) (mouseButtonDown t) (mouseJoint t) (boundingBox t)
    (position t) (events t).

Definition set_attached (v : bool) (t : Toy) : Toy :=
  mkToy (actorName t) (element t) (components t) v (rootBody t) (sprites t)
    (renderScale t) (mouseButtonDown t) (mouseJoint t) (boundingBox t)
    (position t) (events t).

Definition set_rootBody (v : option string) (t : Toy) : Toy :=
  mkToy (actorName t) (element t) (components t) (attached t) v (sprites t)
    (renderScale t) (mouseButtonDown t) (mouseJoint t) (boundingBox t)
    (position t) (events t).

Definition set_sprites (v : list Sprite) (t : Toy) : Toy :=
  mkToy (actorName t) (element t) (components t) (attached t) (rootBody t) v
    (renderScale t) (mouseButtonDown t) (mouseJoint t) (boundingBox t)
    (position t) (events t).

Definition set_renderScale (v : Q) (t : Toy) : Toy :=
  mkToy (actorName t) (element t) (components t) (attached t) (rootBody t)
    (sprites t) v (mouseButtonDown t) (mouseJoint t) (boundingBox t)
    (position t) (events t).

Definition set_mouseButtonDown (v : bool) (t : Toy) : Toy :=
  mkToy (actorName t) (element t) (components t) (attached t) (rootBody t)
    (sprites t) (renderScale t) v (mouseJoint t) (boundingBox t)
    (position t) (events t).

Definition set_mouseJoint (v : option string) (t : Toy) : Toy :=
  mkToy (actorName t) (element t) (components t) (attached t) (rootBody t)
    (sprites t) (renderScale t) (mouseButtonDown t) v (boundingBox t)
    (position t) (events t).

Definition set_boundingBox (v : option (Q * Q)) (t : Toy) : Toy :=
  mkToy (actorName t) (element t) (components t) (attached t) (rootBody t)
    (sprites t) (renderScale t) (mouseButtonDown t) (mouseJoint t) v
    (position t) (events t).

Definition set_position (v : Point2D) (t : Toy) : Toy :=
  mkToy (actorName t) (element t) (components t) (attached t) (rootBody t)
    (sprites t) (renderScale t) (mouseButtonDown t) (mouseJoint t)
    (boundingBox t) v (events t).

Definition set_events (v : list (string * Handler)) (t : Toy) : Toy :=
  mkToy (actorName t) (element t) (components t) (attached t) (rootBody t)
    (sprites t) (renderScale t) (mouseButtonDown t) (mouseJoint t)
    (boundingBox t) (position t) v.

(** ** Computations that mutate the state and may throw *)

Inductive Error :=
| TypeError (what : string)
| Raised (msg : string).

Inductive Outcome (A : Type) :=
| Returned (a : A)
| Thrown (e : Error).

Arguments Returned {A} a.
Arguments Thrown {A} e.

Definition M (A : Type) : Type := State -> Outcome A * State.

Definition ret {A} (a : A) : M A := fun s => (Returned a, s).

Definition throw {A} (e : Error) : M A := fun s => (Thrown e, s).

Definition bind {A B} (m : M A) (k : A -> M B) : M B :=
  fun s =>
    match m s with
    | (Returned a, s') => k a s'
    | (Thrown e, s') => (Thrown e, s')
    end.

Notation "x <- m ;; k" := (bind m (fun x => k))
  (at level 100, m at next level, right associativity).
Notation "m ;; k" := (bind m (fun _ => k))
  (at level 100, right associativity).

Definition getThis : M Toy := fun s => (Returned (this s), s).

Definition modifyThis (f : Toy -> Toy) : M unit :=
  fun s => (Returned tt, mkState (f (this s)) (simulation s)).

(** ** Engine services used by the toy

    The component table of a game object ([add], [getComponent]) and the
    methods of the components the toy calls.  A method call on [null] or on
    an object without that method throws a [TypeError]. *)

Definition add (name : string) (c : Component) : M unit :=
  modifyThis (fun t => set_components (<[name := c]> (components t)) t).

Definition getComponent (name : string) : M (option Component) :=
  t <- getThis ;; ret (components t !! name).

(** Calls a method of the body component called [name] that updates it in
    place. *)
Definition onBody (name method : string)
    (f : BodyComponent -> Outcome BodyComponent) : M unit :=
  c <- getComponent name ;;
  match c with
  | Some (Body b) =>
      match f b with
      | Returned b' => add name (Body b')
      | Thrown e => throw e
      end
  | _ => throw (TypeError method)
  end.

Definition Body_setScale (scale : Q) (b : BodyComponent) : Outcome BodyComponent :=
  Returned (mkBody (bodyShape b) scale (bodyRender b) (bodyForces b)).

Definition Body_setRenderComponent (r : SpriteRender) (b : BodyComponent)
    : Outcome BodyComponent :=
  Returned (mkBody (bodyShape b) (bodyScale b) (Some r) (bodyForces b)).

(** [body.getRenderComponent().setSprite(sprite)] *)
Definition Body_setRenderSprite (sprite : Sprite) (b : BodyComponent)
    : Outcome BodyComponent :=
  match bodyRender b with
  | Some r =>
      Returned (mkBody (bodyShape b) (bodyScale b)
                  (Some (mkSpriteRender (renderName r) (Some sprite)))
                  (bodyForces b))
  | None => Thrown (TypeError "setSprite")
  end.

(** Modelled from the spec: the force-application primitive of the physics
    world, [body.applyForce(force, location)]; the call is recorded on the
    body. *)
Definition Body_applyForce (amt : Vector2D) (loc : Point2D) (b : BodyComponent)
    : Outcome BodyComponent :=
  Returned (mkBody (bodyShape b) (bodyScale b) (bodyRender b)
              ((amt, loc) :: bodyForces b)).

(** Calls a method of the joint that the reference [ref] points to. *)
Definition onJoint (ref : option string) (method : string)
    (f : MouseJoint -> Simulation -> MouseJoint * Simulation) : M unit :=
  match ref with
  | None => throw (TypeError method)
  | Some k =>
      c <- getComponent k ;;
      match c with
      | Some (Joint j) =>
          fun s =>
            let (j', w') := f j (simulation s) in
            (Returned tt,
             mkState (set_components (<[k := Joint j']> (components (this s)))
                        (this s)) w')
      | _ => throw (TypeError method)
      end
  end.

Definition set_jointStarted (v : bool) (j : MouseJoint) : MouseJoint :=
  mkJoint (jointName j) (jointBody j) v (jointTarget j).

(** Modelled from the spec: [start()] inserts the constraint into the physics
    world; calling it while already started is a no-op. *)
Definition MouseJoint_startSimulation (j : MouseJoint) (w : Simulation)
    : MouseJoint * Simulation :=
  if jointStarted j then (j, w)
  else (set_jointStarted true j, mkSim (jointName j :: worldJoints w)).

(** Modelled from the spec: [stop()] removes the constraint from the world;
    calling it while not started is a no-op. *)
Definition MouseJoint_stopSimulation (j : MouseJoint) (w : Simulation)
    : MouseJoint * Simulation :=
  if jointStarted j
  then (set_jointStarted false j,
        mkSim (filter (fun n => n ≠ jointName j) (worldJoints w)))
  else (j, w).

(** Modelled from the spec: [updateTarget(point)] moves the target of an
    active constraint and has no effect on an inactive one.  The toy never
    calls it. *)
Definition MouseJoint_updateTarget (p : Point2D) (j : MouseJoint) (w : Simulation)
    : MouseJoint * Simulation :=
  if jointStarted j
  then (mkJoint (jointName j) (jointBody j) (jointStarted j) (Some p), w)
  else (j, w).

(** ** Methods of [Toy] *)

(** [setSprite(spriteIdx)], lines 149-153. *)
Definition setSprite (spriteIdx : nat) : M unit :=
  t <- getThis ;;
  match sprites t !! spriteIdx with
  | None => throw (TypeError "getBoundingBox")
  | Some sprite =>
      modifyThis (set_boundingBox (Some (spriteBoundingBox sprite))) ;;
      onBody "physics" "getRenderComponent" (Body_setRenderSprite sprite)
  end.

(** [applyForce(amt, loc)], lines 161-163. *)
Definition applyForce (amt : Vector2D) (loc : Point2D) : M unit :=
  t <- getThis ;;
  onBody "physics" "applyForce" (Body_applyForce amt (position t)).

(** [clicked(p)], lines 171-175.  [force.destroy()] gives the vector back to
    the object pool and changes nothing here. *)
Definition clicked (p : Point2D) : M unit :=
  t <- getThis ;;
  let force := Vector2D_mul (Vector2D_sub (Vector2D_create p) (position t)) 200 in
  applyForce force p.

(** [createColliderComponent(componentName, collisionModel)], lines
    142-143: an empty hook. *)
Definition createColliderComponent (componentName collisionModel : string)
    : M unit := ret tt.

(** Static members, lines 212-216. *)
Definition getClassName : string := "Toy".

Definition COLLISION_MASK : Z := 3.

(** [released()], lines 180-181. *)
Definition released : M unit := ret tt.

(** [mouseDown(state)], lines 190-198. *)
Definition mouseDown (state : bool) : M unit :=
  t <- getThis ;;
  (if state && negb (mouseButtonDown t)
   then onJoint (mouseJoint t) "startSimulation" MouseJoint_startSimulation
   else if mouseButtonDown t && negb state
   then onJoint (mouseJoint t) "stopSimulation" MouseJoint_stopSimulation
   else ret tt) ;;
  modifyThis (set_mouseButtonDown state).

(** [mouseOver(state)], lines 183-188. *)
Definition mouseOver (state : bool) : M unit :=
  setSprite (if state then 1 else 0)%nat ;;
  t <- getThis ;;
  if mouseButtonDown t && negb state then mouseDown false else ret tt.

(** [mouseMove(mInfo)], lines 200-204: the body of the [if] is a comment. *)
Definition mouseMove (mInfo : Point2D) : M unit :=
  t <- getThis ;;
  if mouseButtonDown t then ret tt else ret tt.

(** ** Construction *)

(** The well-behaved implementations of the abstract hook
    [createPhysicalBody]: one that returns without adding anything (the hook
    of [Toy] itself), one that adds one body component under the given name
    (a concrete toy), or one that throws before it has touched the object.
    A hook is a method and may do more than that; [BodyHook] and
    [constructorWith] below cover any hook. *)
Definition BodyFactory : Type := string -> Q -> Outcome (option BodyComponent).

(** [createPhysicalBody(componentName, scale)] of the base class, lines
    139-140: an empty body. *)
Definition Toy_createPhysicalBody : BodyFactory := fun _ _ => Returned None.

Definition createPhysicalBody (factory : BodyFactory) (componentName : string)
    (scale : Q) : M unit :=
  match factory componentName scale with
  | Returned None => ret tt
  | Returned (Some b) => add componentName (Body b)
  | Thrown e => throw e
  end.

(** The globals the constructor reads: the sprite loader of [PhysicsDemo]
    and the next value of [R.lang.Math2.random()]. *)
Record Globals := mkGlobals {
  getSprite : string -> string -> Sprite;
  random : Q
}.

Definition addEvent (name : string) (h : Handler) : M unit :=
  modifyThis (fun t => set_events (events t ++ [(name, h)]) t).

(** Modelled from the spec: [MouseJoint.create(name, body, simulation)]
    makes a constraint that is not yet inserted in the world. *)
Definition MouseJoint_create (name body : string) : MouseJoint :=
  mkJoint name body false None.

(** A fresh object with the defaults of the prototype, lines 60-63, in a
    simulation without joints. *)
Definition newToy : Toy :=
  mkToy "" None ∅ false None [] 1 false None None (mkPoint 0 0) [].

Definition initial : State := mkState newToy (mkSim []).

(** [constructor(spriteResource, spriteName, spriteOverName)], lines 68-130.
    Line 70 clears a field, [sprite], that nothing else reads; it has no
    counterpart here. *)
Definition constructor (g : Globals) (factory : BodyFactory)
    (spriteResource spriteName spriteOverName : string) : M unit :=
  modifyThis (set_actorName "PhysicsToy") ;;
  modifyThis (set_mouseButtonDown false) ;;
  modifyThis (set_renderScale (random g * 1 + 0.8)%Q) ;;
  modifyThis (set_element (Some "<div>")) ;;
  add "draw" (DomRender "draw") ;;
  add "mouse" (MouseInput "mouse") ;;
  modifyThis (set_attached true) ;;
  t <- getThis ;;
  createPhysicalBody factory "physics" (renderScale t) ;;
  onBody "physics" "setScale" (Body_setScale (renderScale t)) ;;
  onBody "physics" "setRenderComponent"
    (Body_setRenderComponent (mkSpriteRender "draw" None)) ;;
  modifyThis (set_rootBody (Some "physics")) ;;
  modifyThis (set_sprites []) ;;
  modifyThis (fun t => set_sprites
    (sprites t ++ [getSprite g spriteResource spriteName]) t) ;;
  modifyThis (fun t => set_sprites
    (sprites t ++ [getSprite g spriteResource spriteOverName]) t) ;;
  setSprite 0 ;;
  modifyThis (set_position (mkPoint 50 0)) ;;
  modifyThis (set_mouseJoint (Some "mousejoint")) ;;
  add "mousejoint" (Joint (MouseJoint_create "mousejoint" "physics")) ;;
  addEvent "mouseover" (CallMouseOver true) ;;
  addEvent "mouseout" (CallMouseOver false) ;;
  addEvent "mousedown" (CallMouseDown true) ;;
  addEvent "mouseup" (CallMouseDown false) ;;
  addEvent "mousemove" CallMouseMove.

(** ** Event delivery *)

Definition call (h : Handler) (mouseInfo : Point2D) : M unit :=
  match h with
  | CallMouseOver state => mouseOver state
  | CallMouseDown state => mouseDown state
  | CallMouseMove => mouseMove mouseInfo
  end.

(** Runs, in registration order, the handlers registered for [name]. *)
Fixpoint callAll (hs : list (string * Handler)) (name : string)
    (mouseInfo : Point2D) : M unit :=
  match hs with
  | [] => ret tt
  | (n, h) :: hs' =>
      (if decide (n = name) then call h mouseInfo else ret tt) ;;
      callAll hs' name mouseInfo
  end.

Definition triggerEvent (name : string) (mouseInfo : Point2D) : M unit :=
  t <- getThis ;; callAll (events t) name mouseInfo.

(** The pointer events of the spec and the DOM events that carry them. *)
Inductive PointerEvent :=
| PointerEnter
| PointerLeave
| PointerPress
| PointerRelease
| PointerMove (p : Point2D).

Definition eventName (ev : PointerEvent) : string :=
  match ev with
  | PointerEnter => "mouseover"
  | PointerLeave => "mouseout"
  | PointerPress => "mousedown"
  | PointerRelease => "mouseup"
  | PointerMove _ => "mousemove"
  end.

Definition mouseInfoOf (ev : PointerEvent) : Point2D :=
  match ev with
  | PointerMove p => p
  | _ => mkPoint 0 0
  end.

Definition deliver (ev : PointerEvent) : M unit :=
  triggerEvent (eventName ev) (mouseInfoOf ev).

Fixpoint deliverAll (evs : list PointerEvent) : M unit :=
  match evs with
  | [] => ret tt
  | ev :: evs' => deliver ev ;; deliverAll evs'
  end.

(** ** Observations *)

Definition isDragging (s : State) : bool := mouseButtonDown (this s).

Definition theJoint (s : State) : option MouseJoint :=
  match mouseJoint (this s) with
  | Some k =>
      match components (this s) !! k with
      | Some (Joint j) => Some j
      | _ => None
      end
  | None => None
  end.

Definition constraintActive (s : State) : bool :=
  match theJoint s with
  | Some j => jointStarted j
  | None => false
  end.

Definition constraintTarget (s : State) : option Point2D :=
  match theJoint s with
  | Some j => jointTarget j
  | None => None
  end.

(** Number of instances of the toy's constraint in the physics world. *)
Definition constraintInstances (s : State) : nat :=
  match mouseJoint (this s) with
  | Some k => length (filter (fun n => n = k) (worldJoints (simulation s)))
  | None => 0
  end.

Definition theBody (s : State) : option BodyComponent :=
  match components (this s) !! "physics" with
  | Some (Body b) => Some b
  | _ => None
  end.

(** The sprite shown by the render component of the body. *)
Definition activeImage (s : State) : option Sprite :=
  match theBody s with
  | Some b =>
      match bodyRender b with
      | Some r => renderSprite r
      | None => None
      end
  | None => None
  end.

Definition appliedForces (s : State) : list (Vector2D * Point2D) :=
  match theBody s with
  | Some b => bodyForces b
  | None => []
  end.

(** The hover state is not stored by the toy: it is the argument of the last
    [mouseOver] call, that is, whether the last enter/leave event was an
    enter. *)
Fixpoint hoverAfter (hover : bool) (evs : list PointerEvent) : bool :=
  match evs with
  | [] => hover
  | PointerEnter :: evs' => hoverAfter true evs'
  | PointerLeave :: evs' => hoverAfter false evs'
  | _ :: evs' => hoverAfter hover evs'
  end.

(** The drag state after a sequence of events, as [mouseDown] and
    [mouseOver] compute it: a press starts a drag, a release or a leave ends
    it. *)
Fixpoint dragAfter (drag : bool) (evs : list PointerEvent) : bool :=
  match evs with
  | [] => drag
  | PointerPress :: evs' => dragAfter true evs'
  | PointerRelease :: evs' => dragAfter false evs'
  | PointerLeave :: evs' => dragAfter false evs'
  | _ :: evs' => dragAfter drag evs'
  end.

(** ** A concrete toy, for examples *)

Definition demoGlobals : Globals :=
  mkGlobals (fun res name => mkSprite res name (60, 60)%Q) 0.5.

Definition ballFactory : BodyFactory :=
  fun _ scale => Returned (Some (mkBody "circle" 1 None [])).

Definition demoToy : State :=
  snd (constructor demoGlobals ballFactory "beachball" "ball" "over" initial).

(** ** Specification vocabulary: invariants and example states *)

(** The handlers the constructor registers, lines 111-129. *)
Definition toyEvents : list (string * Handler) :=
  [("mouseover", CallMouseOver true); ("mouseout", CallMouseOver false);
   ("mousedown", CallMouseDown true); ("mouseup", CallMouseDown false);
   ("mousemove", CallMouseMove)].

(** What the constructor establishes and every handler keeps. *)
Record Ready (s : State) : Prop := mkReady {
  ready_sprites : exists s0 s1, sprites (this s) = [s0; s1];
  ready_body : exists b r,
    components (this s) !! "physics" = Some (Body b) /\ bodyRender b = Some r;
  ready_ref : mouseJoint (this s) = Some "mousejoint";
  ready_joint : exists j,
    components (this s) !! "mousejoint" = Some (Joint j) /\
    jointName j = "mousejoint" /\
    jointStarted j = mouseButtonDown (this s);
  ready_world :
    worldJoints (simulation s) =
    if mouseButtonDown (this s) then ["mousejoint"] else [];
  ready_events : events (this s) = toyEvents
}.

(** What a handler leaves alone. *)
Definition sameBody (s s' : State) : Prop :=
  sprites (this s') = sprites (this s) /\ theBody s' = theBody s /\
  position (this s') = position (this s) /\
  constraintTarget s' = constraintTarget s.

Definition sameDrag (s s' : State) : Prop :=
  sprites (this s') = sprites (this s) /\
  mouseButtonDown (this s') = mouseButtonDown (this s) /\
  theJoint s' = theJoint s /\ simulation s' = simulation s /\
  position (this s') = position (this s).

(** The method behind each pointer event. *)
Definition handlerOf (ev : PointerEvent) : Handler :=
  match ev with
  | PointerEnter => CallMouseOver true
  | PointerLeave => CallMouseOver false
  | PointerPress => CallMouseDown true
  | PointerRelease => CallMouseDown false
  | PointerMove _ => CallMouseMove
  end.

(** The render component shows the default sprite or the hover sprite. *)
Definition Shows (hover : bool) (s : State) : Prop :=
  activeImage s = sprites (this s) !! (if hover then 1 else 0)%nat.

(** The toy right after a press. *)
Definition pressedToy : State := snd (deliverAll [PointerPress] demoToy).

(** The components a toy has when the body factory is called. *)
Definition earlyComponents : gmap string Component :=
  <["mouse" := MouseInput "mouse"]> (<["draw" := DomRender "draw"]> ∅).

(** The demo toy after the physics world has moved its body to the origin. *)
Definition toyAtOrigin : State :=
  mkState (set_position (mkPoint 0 0) (this demoToy)) (simulation demoToy).

(** ** Construction with any hook *)

(** The hook [createPhysicalBody] as the method it is: it runs on the object
    under construction and may change it before it returns or throws. *)
Definition BodyHook : Type := string -> Q -> M unit.

(** [constructor(spriteResource, spriteName, spriteOverName)], lines 68-130,
    for a subclass that overrides [createPhysicalBody] with [hook]. *)
Definition constructorWith (g : Globals) (hook : BodyHook)
    (spriteResource spriteName spriteOverName : string) : M unit :=
  modifyThis (set_actorName "PhysicsToy") ;;
  modifyThis (set_mouseButtonDown false) ;;
  modifyThis (set_renderScale (random g * 1 + 0.8)%Q) ;;
  modifyThis (set_element (Some "<div>")) ;;
  add "draw" (DomRender "draw") ;;
  add "mouse" (MouseInput "mouse") ;;
  modifyThis (set_attached true) ;;
  t <- getThis ;;
  hook "physics" (renderScale t) ;;
  onBody "physics" "setScale" (Body_setScale (renderScale t)) ;;
  onBody "physics" "setRenderComponent"
    (Body_setRenderComponent (mkSpriteRender "draw" None)) ;;
  modifyThis (set_rootBody (Some "physics")) ;;
  modifyThis (set_sprites []) ;;
  modifyThis (fun t => set_sprites
    (sprites t ++ [getSprite g spriteResource spriteName]) t) ;;
  modifyThis (fun t => set_sprites
    (sprites t ++ [getSprite g spriteResource spriteOverName]) t) ;;
  setSprite 0 ;;
  modifyThis (set_position (mkPoint 50 0)) ;;
  modifyThis (set_mouseJoint (Some "mousejoint")) ;;
  add "mousejoint" (Joint (MouseJoint_create "mousejoint" "physics")) ;;
  addEvent "mouseover" (CallMouseOver true) ;;
  addEvent "mouseout" (CallMouseOver false) ;;
  addEvent "mousedown" (CallMouseDown true) ;;
  addEvent "mouseup" (CallMouseDown false) ;;
  addEvent "mousemove" CallMouseMove.





(** ** Legal events *)

(** The precondition column of the transition table of the spec: a press
    needs the pointer inside the bounds and no drag in progress, a release
    and a move need a drag in progress, an enter and a leave need nothing.
    An event whose precondition does not hold is illegal or out of order. *)
Definition specPrecondition (hover drag : bool) (ev : PointerEvent) : bool :=
  match ev with
  | PointerEnter => true
  | PointerLeave => true
  | PointerPress => hover && negb drag
  | PointerRelease => drag
  | PointerMove _ => drag
  end.

(** Every illegal event, after any history, returns and changes nothing. *)
Definition illegalEventsAreNoops (s0 : State) : Prop :=
  forall evs ev s,
    deliverAll evs s0 = (Returned tt, s) ->
    specPrecondition (hoverAfter false evs) (dragAfter false evs) ev = false ->
    deliver ev s = (Returned tt, s).

(** ** Closed forms, for the properties beyond the claims *)

(** The force [clicked(p)] computes for a toy at [pos], line 172. *)
Definition clickForce (p pos : Point2D) : Vector2D :=
  Vector2D_mul (Vector2D_sub (Vector2D_create p) pos) 200.

(** The state of a toy built from the body [b] of its factory, with the
    pointer over it or not ([hover]) and a drag in progress or not
    ([drag]). *)
Definition toyState (g : Globals) (res name over : string)
    (b : BodyComponent) (hover drag : bool) : State :=
  let scale := (random g * 1 + 0.8)%Q in
  let shown := getSprite g res (if hover then over else name) in
  mkState
    (mkToy "PhysicsToy" (Some "<div>")
       (<["mousejoint" := Joint (mkJoint "mousejoint" "physics" drag None)]>
          (<["physics" :=
               Body (mkBody (bodyShape b) scale
                       (Some (mkSpriteRender "draw" (Some shown)))
                       (bodyForces b))]> earlyComponents))
       true (Some "physics")
       [getSprite g res name; getSprite g res over]
       scale drag (Some "mousejoint")
       (Some (spriteBoundingBox shown)) (mkPoint 50 0) toyEvents)
    (mkSim (if drag then ["mousejoint"] else [])).

(** A body with one more recorded force. *)
Definition withForce (f : Vector2D * Point2D) (b : BodyComponent)
    : BodyComponent :=
  mkBody (bodyShape b) (bodyScale b) (bodyRender b) (f :: bodyForces b).

(** An object that has sprites but no components yet. *)
Definition spritesOnly : State :=
  mkState (set_sprites [mkSprite "beachball" "ball" (60, 60)%Q] newToy)
    (mkSim []).

(** * Verification *)

(** ** Tactics *)

Ltac open_ready H s :=
  let Hsp := fresh "Hsp" in let Hb := fresh "Hb" in let Hr := fresh "Hr" in
  let Href := fresh "Href" in let Hj := fresh "Hj" in let Hn := fresh "Hn" in
  let Hst := fresh "Hst" in let Hw := fresh "Hw" in let Hev := fresh "Hev" in
  destruct H as [Hsp (?b & ?r & Hb & Hr) Href (?j & Hj & Hn & Hst) Hw Hev];
  destruct s as [[?an ?el ?cs ?att ?rb ?sps ?rs ?mbd ?mj ?bb ?pos ?evs] [?js]];
  simpl in Hsp, Hb, Href, Hj, Hst, Hw, Hev.

Ltac run_method :=
  unfold bind, getThis, ret, throw, modifyThis, onJoint, onBody, getComponent,
    add, bind, getThis, ret, throw, modifyThis; simpl.

(** ** The monad *)

Lemma bind_returned {A B} (m : M A) (k : A -> M B) s a s' :
  m s = (Returned a, s') -> bind m k s = k a s'.
Proof. intros H. unfold bind. by rewrite H. Qed.

Lemma bind_thrown {A B} (m : M A) (k : A -> M B) s e s' :
  m s = (Thrown e, s') -> bind m k s = (Thrown e, s').
Proof. intros H. unfold bind. by rewrite H. Qed.

Lemma bind_ret_tt (m : M unit) s : bind m (fun _ => ret tt) s = m s.
Proof. unfold bind, ret. by destruct (m s) as [[[]|e] s']. Qed.

(** ** The state of a constructed toy *)

Lemma mouseDown_spec s state :
  Ready s ->
  exists s', mouseDown state s = (Returned tt, s') /\ Ready s' /\
    mouseButtonDown (this s') = state /\ sameBody s s' /\
    (mouseButtonDown (this s) = state -> s' = s).
Proof.
  intros H. open_ready H s. subst.
  destruct j as [jn jb jst jt]; simpl in *; subst.
  destruct state, jst; unfold mouseDown; run_method; rewrite ?Hj; simpl.
  all: eexists; split; [reflexivity|].
  all: split; [constructor; simpl; eauto; simplify_map_eq; eauto|].
  all: unfold sameBody, theBody, constraintTarget, theJoint; simpl;
    simplify_map_eq; try done.
Qed.

Lemma setSprite_spec s i sprite :
  Ready s -> sprites (this s) !! i = Some sprite ->
  exists s', setSprite i s = (Returned tt, s') /\ Ready s' /\
    activeImage s' = Some sprite /\ appliedForces s' = appliedForces s /\
    sameDrag s s'.
Proof.
  intros H Hi. open_ready H s. subst.
  unfold setSprite; run_method. simpl in Hi. rewrite Hi. simpl.
  rewrite Hb. unfold Body_setRenderSprite. rewrite Hr.
  eexists; split; [reflexivity|].
  split; [constructor; simpl; eauto; simplify_map_eq; eauto|].
  unfold activeImage, appliedForces, sameDrag, theBody, theJoint; simpl.
  simplify_map_eq. done.
Qed.

Lemma mouseOver_spec s state :
  Ready s ->
  exists s', mouseOver state s = (Returned tt, s') /\ Ready s' /\
    activeImage s' = sprites (this s) !! (if state then 1 else 0)%nat /\
    mouseButtonDown (this s') = mouseButtonDown (this s) && state /\
    sprites (this s') = sprites (this s) /\
    appliedForces s' = appliedForces s /\
    position (this s') = position (this s) /\
    constraintTarget s' = constraintTarget s.
Proof.
  intros H.
  assert (exists sprite, sprites (this s) !! (if state then 1 else 0)%nat = Some sprite)
    as [sprite Hi].
  { destruct H as [(s0 & s1 & E) _ _ _ _ _]. rewrite E. destruct state; simpl; eauto. }
  destruct (setSprite_spec s _ sprite H Hi)
    as (s1 & E1 & R1 & A1 & F1 & S1 & D1 & J1 & W1 & P1).
  unfold mouseOver. rewrite (bind_returned _ _ _ _ _ E1).
  unfold bind at 1, getThis. rewrite D1.
  destruct (mouseButtonDown (this s)) eqn:Hd, state; simpl.
  2: { destruct (mouseDown_spec s1 false R1)
         as (s2 & E2 & R2 & D2 & (S2 & B2 & P2 & T2) & _).
       exists s2. rewrite E2. unfold activeImage, appliedForces in *.
       rewrite B2, S2, P2, T2, Hi. unfold constraintTarget. rewrite J1. done. }
  all: exists s1; unfold ret, constraintTarget; rewrite Hi, J1; done.
Qed.

Lemma mouseMove_spec s mInfo : mouseMove mInfo s = (Returned tt, s).
Proof. unfold mouseMove, bind, getThis, ret. by destruct (mouseButtonDown (this s)). Qed.

Lemma deliver_call s ev :
  events (this s) = toyEvents ->
  deliver ev s = call (handlerOf ev) (mouseInfoOf ev) s.
Proof.
  intros H. unfold deliver, triggerEvent. unfold bind at 1, getThis. rewrite H.
  destruct ev; cbn [eventName mouseInfoOf handlerOf call callAll toyEvents];
    repeat case_decide; try done; unfold bind, ret;
    match goal with |- context [match ?m s with _ => _ end] =>
      destruct (m s) as [[[]|?] ?] end; reflexivity.
Qed.

(** ** Invariants along event sequences *)

Lemma ready_constraint s :
  Ready s ->
  constraintActive s = isDragging s /\
  constraintInstances s = (if isDragging s then 1 else 0)%nat.
Proof.
  intros H. open_ready H s.
  unfold constraintActive, constraintInstances, theJoint, isDragging. simpl.
  subst. rewrite Hj. split; [done|]. by destruct (jointStarted j).
Qed.

Lemma deliver_spec s ev :
  Ready s ->
  exists s', deliver ev s = (Returned tt, s') /\ Ready s' /\
    sprites (this s') = sprites (this s) /\
    appliedForces s' = appliedForces s /\
    position (this s') = position (this s) /\
    constraintTarget s' = constraintTarget s /\
    isDragging s' = dragAfter (isDragging s) [ev] /\
    (forall h, Shows h s -> Shows (hoverAfter h [ev]) s').
Proof.
  intros H. rewrite deliver_call by apply H. unfold isDragging.
  destruct ev; simpl.
  - destruct (mouseOver_spec s true H) as (s' & E & R & A & D & S & F & P & T).
    exists s'. unfold Shows. rewrite S, A, D, andb_true_r. done.
  - destruct (mouseOver_spec s false H) as (s' & E & R & A & D & S & F & P & T).
    exists s'. unfold Shows. rewrite S, A, D, andb_false_r. done.
  - destruct (mouseDown_spec s true H) as (s' & E & R & D & (S & B & P & T) & _).
    exists s'. unfold Shows, activeImage, appliedForces. rewrite S, B. done.
  - destruct (mouseDown_spec s false H) as (s' & E & R & D & (S & B & P & T) & _).
    exists s'. unfold Shows, activeImage, appliedForces. rewrite S, B. done.
  - exists s. rewrite mouseMove_spec. done.
Qed.

Lemma hoverAfter_cons h ev evs :
  hoverAfter h (ev :: evs) = hoverAfter (hoverAfter h [ev]) evs.
Proof. by destruct ev. Qed.

Lemma dragAfter_cons d ev evs :
  dragAfter d (ev :: evs) = dragAfter (dragAfter d [ev]) evs.
Proof. by destruct ev. Qed.

Lemma deliverAll_spec evs : forall s h,
  Ready s -> Shows h s ->
  exists s', deliverAll evs s = (Returned tt, s') /\ Ready s' /\
    sprites (this s') = sprites (this s) /\
    appliedForces s' = appliedForces s /\
    position (this s') = position (this s) /\
    constraintTarget s' = constraintTarget s /\
    isDragging s' = dragAfter (isDragging s) evs /\
    Shows (hoverAfter h evs) s'.
Proof.
  induction evs as [|ev evs IH]; intros s h R Sh.
  - exists s. done.
  - destruct (deliver_spec s ev R)
      as (s1 & E1 & R1 & S1 & F1 & P1 & T1 & D1 & Sh1).
    destruct (IH s1 _ R1 (Sh1 h Sh))
      as (s2 & E2 & R2 & S2 & F2 & P2 & T2 & D2 & Sh2).
    exists s2. cbn [deliverAll]. rewrite (bind_returned _ _ _ _ _ E1), E2.
    rewrite hoverAfter_cons, dragAfter_cons, S2, F2, P2, T2, D2, D1. done.
Qed.

(** ** Construction *)

Lemma constructor_spec g factory res name over b :
  factory "physics" (random g * 1 + 0.8)%Q = Returned (Some b) ->
  exists s0, constructor g factory res name over initial = (Returned tt, s0) /\
    Ready s0 /\ Shows false s0 /\
    sprites (this s0) = [getSprite g res name; getSprite g res over] /\
    isDragging s0 = false /\ constraintTarget s0 = None /\
    appliedForces s0 = bodyForces b /\
    position (this s0) = mkPoint 50 0.
Proof.
  intros Hf. unfold constructor, setSprite, addEvent, createPhysicalBody.
  run_method. rewrite Hf. run_method.
  repeat (rewrite lookup_insert_eq; simpl).
  eexists; split; [reflexivity|].
  split; [constructor; simpl; eauto; simplify_map_eq; eauto|].
  unfold Shows, activeImage, appliedForces, constraintTarget, theBody, theJoint,
    isDragging; simpl.
  simplify_map_eq. done.
Qed.

Lemma constructor_returned g factory res name over s0 :
  constructor g factory res name over initial = (Returned tt, s0) ->
  Ready s0 /\ Shows false s0 /\
  sprites (this s0) = [getSprite g res name; getSprite g res over] /\
  isDragging s0 = false /\ constraintTarget s0 = None /\
  position (this s0) = mkPoint 50 0.
Proof.
  intros H.
  destruct (factory "physics" (random g * 1 + 0.8)%Q) as [[b|]|e] eqn:Hf.
  - destruct (constructor_spec g factory res name over b Hf)
      as (s & E & R & Sh & Sp & D & T & _ & P).
    rewrite E in H. by simplify_eq.
  - revert H. unfold constructor, createPhysicalBody. run_method.
    rewrite Hf. run_method. done.
  - revert H. unfold constructor, createPhysicalBody. run_method.
    rewrite Hf. run_method. done.
Qed.

(** Every state reached from a constructed toy by pointer events. *)
Lemma reachable_spec g factory res name over s0 evs :
  constructor g factory res name over initial = (Returned tt, s0) ->
  exists s, deliverAll evs s0 = (Returned tt, s) /\ Ready s /\
    sprites (this s) = [getSprite g res name; getSprite g res over] /\
    constraintTarget s = None /\
    isDragging s = dragAfter false evs /\
    Shows (hoverAfter false evs) s.
Proof.
  intros H.
  destruct (constructor_returned _ _ _ _ _ _ H) as (R & Sh & Sp & D & T & _).
  destruct (deliverAll_spec evs s0 false R Sh)
    as (s & E & R' & S & _ & _ & T' & D' & Sh').
  exists s. rewrite S, Sp, T, D in *. done.
Qed.

Lemma hoverAfter_app h evs evs' :
  hoverAfter h (evs ++ evs') = hoverAfter (hoverAfter h evs) evs'.
Proof.
  revert h. induction evs as [|ev evs IH]; intros h; [done|].
  destruct ev; simpl; apply IH.
Qed.

Lemma demoToy_constructed :
  constructor demoGlobals ballFactory "beachball" "ball" "over" initial
  = (Returned tt, demoToy).
Proof. vm_compute. reflexivity. Qed.

(** The base class cannot be instantiated: its hook adds no body, and the
    next line of the constructor calls [setScale] on [null]. *)
Lemma base_constructor_throws g res name over :
  fst (constructor g Toy_createPhysicalBody res name over initial)
  = Thrown (TypeError "setScale").
Proof. reflexivity. Qed.

(** ** The claims *)

(** C1: along every sequence of pointer events delivered to a constructed
    toy, after each event the pointer constraint is active exactly when
    [mouseButtonDown] (the drag state) is true; the joint is then in the
    physics world once, and otherwise not at all. *)
Theorem C1_constraint_active_iff_dragging g factory res name over s0 evs :
  constructor g factory res name over initial = (Returned tt, s0) ->
  exists s, deliverAll evs s0 = (Returned tt, s) /\
    (constraintActive s = true <-> isDragging s = true) /\
    constraintInstances s = (if isDragging s then 1 else 0)%nat.
Proof.
  intros H. destruct (reachable_spec _ _ _ _ _ _ evs H) as (s & E & R & _).
  destruct (ready_constraint s R) as [A I].
  exists s. rewrite A. done.
Qed.

Lemma C1_witness :
  exists s, deliverAll [PointerEnter; PointerPress; PointerLeave] demoToy
            = (Returned tt, s) /\
    (constraintActive s = true <-> isDragging s = true) /\
    constraintInstances s = (if isDragging s then 1 else 0)%nat.
Proof.
  apply (C1_constraint_active_iff_dragging demoGlobals ballFactory
           "beachball" "ball" "over").
  vm_compute. reflexivity.
Defined.

(** C2, as the code has it: [mouseMove] does nothing, whether a drag is in
    progress or not, so no pointer event ever gives the constraint a target.
    After a press and a move to (10,5) the toy is dragging and the
    constraint is active, but its target is still unset. *)
Theorem C2_pointer_move_changes_nothing g factory res name over s0 evs p :
  constructor g factory res name over initial = (Returned tt, s0) ->
  (exists s, deliverAll evs s0 = (Returned tt, s) /\
     deliver (PointerMove p) s = (Returned tt, s) /\
     constraintTarget s = None) /\
  (exists s, deliverAll [PointerPress; PointerMove (mkPoint 10 5)] s0
             = (Returned tt, s) /\
     isDragging s = true /\ constraintActive s = true /\
     constraintTarget s = None).
Proof.
  intros H. split.
  - destruct (reachable_spec _ _ _ _ _ _ evs H) as (s & E & R & _ & T & _).
    exists s. repeat split; try done.
    rewrite deliver_call by apply R. apply mouseMove_spec.
  - destruct (reachable_spec _ _ _ _ _ _
                [PointerPress; PointerMove (mkPoint 10 5)] H)
      as (s & E & R & _ & T & D & _).
    destruct (ready_constraint s R) as [A _].
    exists s. rewrite A, D. done.
Qed.

Lemma C2_witness :
  (exists s, deliverAll [PointerPress] demoToy = (Returned tt, s) /\
     deliver (PointerMove (mkPoint 10 5)) s = (Returned tt, s) /\
     constraintTarget s = None) /\
  (exists s, deliverAll [PointerPress; PointerMove (mkPoint 10 5)] demoToy
             = (Returned tt, s) /\
     isDragging s = true /\ constraintActive s = true /\
     constraintTarget s = None).
Proof.
  apply (C2_pointer_move_changes_nothing demoGlobals ballFactory
           "beachball" "ball" "over").
  vm_compute. reflexivity.
Defined.

(** C2 as stated fails: after a press and a move to (10,5) the toy is
    dragging, but the target of the constraint is not (10,5). *)
Lemma C2_target_not_updated :
  ~ (exists s, deliverAll [PointerPress; PointerMove (mkPoint 10 5)] demoToy
               = (Returned tt, s) /\
       constraintTarget s = Some (mkPoint 10 5) /\ isDragging s = true).
Proof.
  intros (s & E & T & _). vm_compute in E. injection E as <-.
  vm_compute in T. discriminate T.
Qed.

Lemma leave_is_release s :
  Ready s -> isDragging s = true ->
  deliver PointerLeave s = (setSprite 0 ;; deliver PointerRelease) s.
Proof.
  intros R D.
  assert (exists sprite, sprites (this s) !! 0%nat = Some sprite) as [sprite Hi].
  { destruct R as [(a & b & E) _ _ _ _ _]. rewrite E. simpl. eauto. }
  destruct (setSprite_spec s _ sprite R Hi)
    as (s1 & E1 & R1 & _ & _ & _ & D1 & _).
  rewrite deliver_call by apply R. cbn [handlerOf call]. unfold mouseOver.
  rewrite !(bind_returned _ _ _ _ _ E1).
  unfold bind, getThis. unfold isDragging in D. rewrite D1, D. simpl.
  rewrite deliver_call by apply R1. reflexivity.
Qed.

Lemma leave_spec s :
  Ready s ->
  exists s', deliver PointerLeave s = (Returned tt, s') /\ Ready s' /\
    activeImage s' = sprites (this s) !! 0%nat /\
    isDragging s' = false /\ constraintActive s' = false /\
    constraintInstances s' = 0%nat.
Proof.
  intros R. rewrite deliver_call by apply R. cbn [handlerOf call].
  destruct (mouseOver_spec s false R) as (s' & E & R' & A & D & _).
  rewrite andb_false_r in D.
  destruct (ready_constraint s' R') as [C I].
  exists s'. rewrite C, I. unfold isDragging. rewrite D. done.
Qed.

(** C3, as the code has it: leaving the toy while a drag is in progress ends
    the drag at once.  [mouseOver(false)] calls [mouseDown(false)], so the
    constraint is stopped and [mouseButtonDown] becomes false, and the
    default sprite is shown again. *)
Theorem C3_leave_ends_drag g factory res name over s0 evs :
  constructor g factory res name over initial = (Returned tt, s0) ->
  dragAfter false evs = true ->
  exists s s', deliverAll evs s0 = (Returned tt, s) /\ isDragging s = true /\
    deliver PointerLeave s = (Returned tt, s') /\
    isDragging s' = false /\ constraintActive s' = false /\
    constraintInstances s' = 0%nat /\
    activeImage s' = Some (getSprite g res name).
Proof.
  intros H Hd.
  destruct (reachable_spec _ _ _ _ _ _ evs H) as (s & E & R & Sp & _ & D & _).
  destruct (leave_spec s R) as (s' & E' & _ & A & D' & C & I).
  exists s, s'. rewrite D, A, Sp. done.
Qed.

Lemma C3_witness :
  exists s s', deliverAll [PointerEnter; PointerPress] demoToy = (Returned tt, s) /\
    isDragging s = true /\
    deliver PointerLeave s = (Returned tt, s') /\
    isDragging s' = false /\ constraintActive s' = false /\
    constraintInstances s' = 0%nat /\
    activeImage s' = Some (getSprite demoGlobals "beachball" "ball").
Proof.
  apply (C3_leave_ends_drag demoGlobals ballFactory "beachball" "ball" "over").
  - vm_compute. reflexivity.
  - reflexivity.
Defined.

(** C3 as stated fails: the pressed toy is dragging, and a leave does not
    keep the drag and the constraint alive. *)
Lemma C3_drag_does_not_persist :
  isDragging pressedToy = true /\ constraintActive pressedToy = true /\
  ~ (exists s', deliver PointerLeave pressedToy = (Returned tt, s') /\
       isDragging s' = true /\ constraintActive s' = true).
Proof.
  split; [reflexivity|]. split; [reflexivity|].
  intros (s' & E & D & _). vm_compute in E. injection E as <-.
  vm_compute in D. discriminate D.
Qed.

Lemma leave_is_release_always s :
  Ready s ->
  deliver PointerLeave s = (setSprite 0 ;; deliver PointerRelease) s.
Proof.
  intros R. destruct (mouseButtonDown (this s)) eqn:D.
  { by apply leave_is_release. }
  assert (exists sprite, sprites (this s) !! 0%nat = Some sprite) as [sprite Hi].
  { destruct R as [(a & b & E) _ _ _ _ _]. rewrite E. simpl. eauto. }
  destruct (setSprite_spec s _ sprite R Hi)
    as (s1 & E1 & R1 & _ & _ & _ & D1 & _).
  rewrite deliver_call by apply R. cbn [handlerOf call]. unfold mouseOver.
  rewrite !(bind_returned _ _ _ _ _ E1).
  unfold bind at 1, getThis. rewrite D1, D. simpl.
  rewrite deliver_call by apply R1. cbn [handlerOf call].
  destruct (mouseDown_spec s1 false R1) as (s2 & E2 & _ & _ & _ & I).
  rewrite E2, I by congruence. reflexivity.
Qed.

(** C4: a pointer leave, in any state a constructed toy can reach.  Before
    it the toy is dragging, with its constraint active and in the world,
    exactly when the last press, release or leave was a press, and it shows
    the hover sprite exactly when the last enter or leave was an enter.  The
    leave is the sprite change followed by a release: afterwards the hover
    state is false, the default sprite is shown, the toy is not dragging and
    the constraint is stopped and out of the world. *)
Theorem C4_leave_is_implicit_release g factory res name over s0 evs :
  constructor g factory res name over initial = (Returned tt, s0) ->
  exists s s', deliverAll evs s0 = (Returned tt, s) /\
    isDragging s = dragAfter false evs /\
    constraintActive s = dragAfter false evs /\
    constraintInstances s = (if dragAfter false evs then 1 else 0)%nat /\
    activeImage s = Some (if hoverAfter false evs
                          then getSprite g res over else getSprite g res name) /\
    deliver PointerLeave s = (Returned tt, s') /\
    deliver PointerLeave s = (setSprite 0 ;; deliver PointerRelease) s /\
    hoverAfter false (evs ++ [PointerLeave]) = false /\
    activeImage s' = Some (getSprite g res name) /\
    isDragging s' = false /\ constraintActive s' = false /\
    constraintInstances s' = 0%nat.
Proof.
  intros H.
  destruct (reachable_spec _ _ _ _ _ _ evs H) as (s & E & R & Sp & _ & D & Sh).
  destruct (ready_constraint s R) as [C I].
  destruct (leave_spec s R) as (s' & E' & _ & A & D' & C' & I').
  exists s, s'. unfold Shows in Sh.
  rewrite hoverAfter_app, A, C, I, D, Sh, Sp. repeat split; try done.
  - by destruct (hoverAfter false evs).
  - by apply leave_is_release_always.
Qed.

Lemma C4_witness :
  exists s s', deliverAll [PointerEnter; PointerPress] demoToy = (Returned tt, s) /\
    isDragging s = true /\
    constraintActive s = true /\
    constraintInstances s = 1%nat /\
    activeImage s = Some (getSprite demoGlobals "beachball" "over") /\
    deliver PointerLeave s = (Returned tt, s') /\
    deliver PointerLeave s = (setSprite 0 ;; deliver PointerRelease) s /\
    hoverAfter false ([PointerEnter; PointerPress] ++ [PointerLeave]) = false /\
    activeImage s' = Some (getSprite demoGlobals "beachball" "ball") /\
    isDragging s' = false /\ constraintActive s' = false /\
    constraintInstances s' = 0%nat.
Proof.
  apply (C4_leave_is_implicit_release demoGlobals ballFactory
           "beachball" "ball" "over" demoToy [PointerEnter; PointerPress]).
  vm_compute. reflexivity.
Defined.

Lemma constructor_constructorWith g factory res name over :
  constructor g factory res name over
  = constructorWith g (createPhysicalBody factory) res name over.
Proof. reflexivity. Qed.




(** C6: in every state a constructed toy can reach, the sprite shown is
    determined by the hover state alone: the default sprite [sprites[0]]
    when the pointer is not over the toy and the hover sprite [sprites[1]]
    when it is.  Presses, releases and moves do not enter into it. *)
Theorem C6_image_follows_hover g factory res name over s0 evs :
  constructor g factory res name over initial = (Returned tt, s0) ->
  exists s, deliverAll evs s0 = (Returned tt, s) /\
    sprites (this s) = [getSprite g res name; getSprite g res over] /\
    activeImage s = sprites (this s) !! (if hoverAfter false evs then 1 else 0)%nat /\
    activeImage s = Some (if hoverAfter false evs
                          then getSprite g res over else getSprite g res name).
Proof.
  intros H.
  destruct (reachable_spec _ _ _ _ _ _ evs H) as (s & E & R & Sp & _ & _ & Sh).
  exists s. unfold Shows in Sh. rewrite Sh, Sp.
  by destruct (hoverAfter false evs).
Qed.

Lemma C6_witness :
  exists s, deliverAll [PointerEnter; PointerPress; PointerMove (mkPoint 3 4)]
              demoToy = (Returned tt, s) /\
    sprites (this s) = [getSprite demoGlobals "beachball" "ball";
                        getSprite demoGlobals "beachball" "over"] /\
    activeImage s = sprites (this s) !! 1%nat /\
    activeImage s = Some (getSprite demoGlobals "beachball" "over").
Proof.
  apply (C6_image_follows_hover demoGlobals ballFactory "beachball" "ball" "over"
           demoToy [PointerEnter; PointerPress; PointerMove (mkPoint 3 4)]).
  vm_compute. reflexivity.
Defined.

(** The joint operations of the spec are idempotent on their own. *)
Lemma startSimulation_idempotent j w :
  let (j', w') := MouseJoint_startSimulation j w in
  MouseJoint_startSimulation j' w' = (j', w').
Proof. unfold MouseJoint_startSimulation. by destruct j as [n b [] t]. Qed.

Lemma stopSimulation_idempotent j w :
  let (j', w') := MouseJoint_stopSimulation j w in
  MouseJoint_stopSimulation j' w' = (j', w').
Proof. unfold MouseJoint_stopSimulation. by destruct j as [n b [] t]. Qed.

(** C7: from every state a constructed toy can reach, a second press right
    after a press changes nothing and leaves exactly one instance of the
    constraint in the world; a second release right after a release changes
    nothing either, and no call throws. *)
Theorem C7_press_and_release_idempotent g factory res name over s0 evs :
  constructor g factory res name over initial = (Returned tt, s0) ->
  exists s s1 s2, deliverAll evs s0 = (Returned tt, s) /\
    deliver PointerPress s = (Returned tt, s1) /\
    deliver PointerPress s1 = (Returned tt, s1) /\
    constraintActive s1 = true /\ constraintInstances s1 = 1%nat /\
    deliver PointerRelease s = (Returned tt, s2) /\
    deliver PointerRelease s2 = (Returned tt, s2) /\
    constraintActive s2 = false /\ constraintInstances s2 = 0%nat.
Proof.
  intros H.
  destruct (reachable_spec _ _ _ _ _ _ evs H) as (s & E & R & _).
  destruct (mouseDown_spec s true R) as (s1 & E1 & R1 & D1 & _ & _).
  destruct (mouseDown_spec s false R) as (s2 & E2 & R2 & D2 & _ & _).
  destruct (mouseDown_spec s1 true R1) as (s1' & E1' & _ & _ & _ & I1).
  destruct (mouseDown_spec s2 false R2) as (s2' & E2' & _ & _ & _ & I2).
  rewrite (I1 D1) in E1'. rewrite (I2 D2) in E2'.
  destruct (ready_constraint s1 R1) as [C1 N1].
  destruct (ready_constraint s2 R2) as [C2 N2].
  unfold isDragging in *. rewrite D1 in C1, N1. rewrite D2 in C2, N2.
  exists s, s1, s2.
  rewrite !deliver_call by (apply R || apply R1 || apply R2). done.
Qed.

Lemma C7_witness :
  exists s s1 s2, deliverAll [PointerEnter] demoToy = (Returned tt, s) /\
    deliver PointerPress s = (Returned tt, s1) /\
    deliver PointerPress s1 = (Returned tt, s1) /\
    constraintActive s1 = true /\ constraintInstances s1 = 1%nat /\
    deliver PointerRelease s = (Returned tt, s2) /\
    deliver PointerRelease s2 = (Returned tt, s2) /\
    constraintActive s2 = false /\ constraintInstances s2 = 0%nat.
Proof.
  apply (C7_press_and_release_idempotent demoGlobals ballFactory
           "beachball" "ball" "over").
  vm_compute. reflexivity.
Defined.

(** C8: [clicked(p)] applies to the body the force [(p - b) * 200], where
    [b] is the position of the toy, at the point [b].  With the body at the
    origin and a click at (5,0) the force is (1000, 0). *)
Theorem C8_click_force s p b :
  theBody s = Some b ->
  (exists s', clicked p s = (Returned tt, s') /\
     appliedForces s' =
       (mkPoint ((px p - px (position (this s))) * 200)%Q
                ((py p - py (position (this s))) * 200)%Q,
        position (this s)) :: bodyForces b /\
     position (this s') = position (this s)) /\
  (position (this s) = mkPoint 0 0 ->
   exists s', clicked (mkPoint 5 0) s = (Returned tt, s') /\
     appliedForces s' = (mkPoint 1000 0, mkPoint 0 0) :: bodyForces b).
Proof.
  intros Hb.
  assert (components (this s) !! "physics" = Some (Body b)) as Hc.
  { unfold theBody in Hb.
    destruct (components (this s) !! "physics") as [[]|]; congruence. }
  split.
  - unfold clicked, applyForce. run_method. rewrite Hc. simpl.
    eexists; split; [reflexivity|].
    unfold appliedForces, theBody. simpl. by simplify_map_eq.
  - intros Hp. unfold clicked, applyForce. run_method. rewrite Hc, Hp. simpl.
    eexists; split; [reflexivity|].
    unfold appliedForces, theBody. simpl. by simplify_map_eq.
Qed.

Lemma C8_witness :
  (exists s', clicked (mkPoint 5 0) toyAtOrigin = (Returned tt, s') /\
     appliedForces s' =
       (mkPoint ((5 - 0) * 200)%Q ((0 - 0) * 200)%Q, mkPoint 0 0) :: [] /\
     position (this s') = mkPoint 0 0) /\
  (position (this toyAtOrigin) = mkPoint 0 0 ->
   exists s', clicked (mkPoint 5 0) toyAtOrigin = (Returned tt, s') /\
     appliedForces s' = (mkPoint 1000 0, mkPoint 0 0) :: []).
Proof.
  apply (C8_click_force toyAtOrigin (mkPoint 5 0)
           (mkBody "circle" (random demoGlobals * 1 + 0.8)%Q
              (Some (mkSpriteRender "draw"
                       (Some (getSprite demoGlobals "beachball" "ball")))) [])).
  vm_compute. reflexivity.
Defined.

(** C9, as the code has it: no pointer event delivered to a constructed toy
    throws, whatever came before, and the events that repeat the current
    button state leave the whole state as it was: a release when no drag is
    in progress, a press when one is, and a move at any time.  A press when
    no drag is in progress always starts one, wherever the pointer is:
    [mouseDown] does not look at the hover state. *)
Theorem C9_noops_depend_on_drag_state_only g factory res name over s0 evs :
  constructor g factory res name over initial = (Returned tt, s0) ->
  exists s, deliverAll evs s0 = (Returned tt, s) /\
    isDragging s = dragAfter false evs /\
    (forall ev, exists s', deliver ev s = (Returned tt, s')) /\
    (isDragging s = false -> deliver PointerRelease s = (Returned tt, s)) /\
    (isDragging s = true -> deliver PointerPress s = (Returned tt, s)) /\
    (forall p, deliver (PointerMove p) s = (Returned tt, s)) /\
    (isDragging s = false ->
       exists s', deliver PointerPress s = (Returned tt, s') /\
         isDragging s' = true /\ constraintActive s' = true /\
         constraintInstances s' = 1%nat).
Proof.
  intros H.
  destruct (reachable_spec _ _ _ _ _ _ evs H) as (s & E & R & _ & _ & Dh & _).
  exists s. split; [done|]. split; [done|]. split; [|split; [|split; [|split]]].
  - intros ev. destruct (deliver_spec s ev R) as (s' & E' & _). eauto.
  - intros D. rewrite deliver_call by apply R.
    destruct (mouseDown_spec s false R) as (s' & E' & _ & _ & _ & I).
    cbn [handlerOf call]. by rewrite E', (I D).
  - intros D. rewrite deliver_call by apply R.
    destruct (mouseDown_spec s true R) as (s' & E' & _ & _ & _ & I).
    cbn [handlerOf call]. by rewrite E', (I D).
  - intros p. rewrite deliver_call by apply R. apply mouseMove_spec.
  - intros _. rewrite deliver_call by apply R. cbn [handlerOf call].
    destruct (mouseDown_spec s true R) as (s' & E' & R' & D' & _ & _).
    destruct (ready_constraint s' R') as [C I].
    exists s'. unfold isDragging in *. rewrite C, I, D'. done.
Qed.

Lemma C9_witness :
  exists s, deliverAll [PointerEnter; PointerLeave] demoToy = (Returned tt, s) /\
    isDragging s = false /\
    (forall ev, exists s', deliver ev s = (Returned tt, s')) /\
    (isDragging s = false -> deliver PointerRelease s = (Returned tt, s)) /\
    (isDragging s = true -> deliver PointerPress s = (Returned tt, s)) /\
    (forall p, deliver (PointerMove p) s = (Returned tt, s)) /\
    (isDragging s = false ->
       exists s', deliver PointerPress s = (Returned tt, s') /\
         isDragging s' = true /\ constraintActive s' = true /\
         constraintInstances s' = 1%nat).
Proof.
  apply (C9_noops_depend_on_drag_state_only demoGlobals ballFactory
           "beachball" "ball" "over" demoToy [PointerEnter; PointerLeave]).
  vm_compute. reflexivity.
Defined.

(** C9 as stated fails: on a toy the pointer has never entered, a press is
    illegal by the table of the spec, yet it is not a no-op: it starts a
    drag. *)
Lemma C9_press_outside_starts_drag :
  specPrecondition (hoverAfter false []) (dragAfter false []) PointerPress
  = false /\
  ~ illegalEventsAreNoops demoToy.
Proof.
  split; [reflexivity|]. intros H.
  specialize (H [] PointerPress demoToy eq_refl eq_refl).
  apply (f_equal (fun r => isDragging (snd r))) in H.
  vm_compute in H. discriminate H.
Qed.

Lemma updateTarget_sets_target p j w :
  jointStarted j = true ->
  jointTarget (fst (MouseJoint_updateTarget p j w)) = Some p.
Proof. intros H. unfold MouseJoint_updateTarget. by rewrite H. Qed.

(** C10: [applyForce(amt, loc)] does not use [loc]; whatever location is
    passed, the force is applied at the position of the toy. *)
Theorem C10_applyForce_ignores_location amt loc1 loc2 s :
  applyForce amt loc1 s = applyForce amt loc2 s /\
  forall b, theBody s = Some b ->
    exists s', applyForce amt loc1 s = (Returned tt, s') /\
      appliedForces s' = (amt, position (this s)) :: bodyForces b.
Proof.
  split; [reflexivity|]. intros b Hb.
  assert (components (this s) !! "physics" = Some (Body b)) as Hc.
  { unfold theBody in Hb.
    destruct (components (this s) !! "physics") as [[]|]; congruence. }
  unfold applyForce. run_method. rewrite Hc. simpl.
  eexists; split; [reflexivity|].
  unfold appliedForces, theBody. simpl. by simplify_map_eq.
Qed.

Lemma C10_witness :
  applyForce (mkPoint 3 4) (mkPoint 1 1) toyAtOrigin
  = applyForce (mkPoint 3 4) (mkPoint 7 9) toyAtOrigin /\
  forall b, theBody toyAtOrigin = Some b ->
    exists s', applyForce (mkPoint 3 4) (mkPoint 1 1) toyAtOrigin
               = (Returned tt, s') /\
      appliedForces s' = (mkPoint 3 4, position (this toyAtOrigin)) :: bodyForces b.
Proof.
  apply (C10_applyForce_ignores_location (mkPoint 3 4) (mkPoint 1 1)
           (mkPoint 7 9) toyAtOrigin).
Defined.

(** * Further properties of the code *)

(** ** The states a constructed toy can be in *)

Lemma deliver_toyState g res name over b hover drag ev :
  deliver ev (toyState g res name over b hover drag)
  = (Returned tt,
     toyState g res name over b (hoverAfter hover [ev]) (dragAfter drag [ev])).
Proof.
  destruct ev, hover, drag; vm_compute; reflexivity.
Qed.

Lemma deliverAll_toyState g res name over b evs : forall hover drag,
  deliverAll evs (toyState g res name over b hover drag)
  = (Returned tt,
     toyState g res name over b (hoverAfter hover evs) (dragAfter drag evs)).
Proof.
  induction evs as [|ev evs IH]; intros hover drag; [reflexivity|].
  cbn [deliverAll].
  rewrite (bind_returned _ _ _ _ _ (deliver_toyState _ _ _ _ _ _ _ ev)), IH.
  by rewrite <- hoverAfter_cons, <- dragAfter_cons.
Qed.

Lemma constructor_toyState g factory res name over b :
  factory "physics" (random g * 1 + 0.8)%Q = Returned (Some b) ->
  constructor g factory res name over initial
  = (Returned tt, toyState g res name over b false false).
Proof.
  intros Hf. unfold constructor, createPhysicalBody. run_method. rewrite Hf.
  vm_compute. reflexivity.
Qed.

Lemma constructor_none g factory res name over :
  factory "physics" (random g * 1 + 0.8)%Q = Returned None ->
  constructor g factory res name over initial
  = (Thrown (TypeError "setScale"),
     mkState (mkToy "PhysicsToy" (Some "<div>") earlyComponents true None []
                (random g * 1 + 0.8)%Q false None None (mkPoint 0 0) [])
             (mkSim [])).
Proof.
  intros Hf. unfold constructor, createPhysicalBody. run_method. rewrite Hf.
  vm_compute. reflexivity.
Qed.

Lemma constructor_thrown g factory res name over e :
  factory "physics" (random g * 1 + 0.8)%Q = Thrown e ->
  fst (constructor g factory res name over initial) = Thrown e.
Proof.
  intros Hf. unfold constructor, createPhysicalBody. run_method. rewrite Hf.
  reflexivity.
Qed.

(** A constructed toy, and every state it reaches, has the closed form. *)
Lemma reachable_toyState g factory res name over s0 :
  constructor g factory res name over initial = (Returned tt, s0) ->
  exists b, factory "physics" (random g * 1 + 0.8)%Q = Returned (Some b) /\
    s0 = toyState g res name over b false false /\
    forall evs, deliverAll evs s0
      = (Returned tt, toyState g res name over b
                        (hoverAfter false evs) (dragAfter false evs)).
Proof.
  intros H.
  destruct (factory "physics" (random g * 1 + 0.8)%Q) as [[b|]|e] eqn:Hf.
  - rewrite (constructor_toyState _ _ _ _ _ _ Hf) in H. simplify_eq.
    exists b. split; [done|]. split; [done|].
    intros evs. apply deliverAll_toyState.
  - rewrite (constructor_none _ _ _ _ _ Hf) in H. discriminate H.
  - apply (f_equal fst) in H. rewrite (constructor_thrown _ _ _ _ _ _ Hf) in H.
    discriminate H.
Qed.

Lemma clicked_toyState g res name over b hover drag p :
  clicked p (toyState g res name over b hover drag)
  = (Returned tt,
     toyState g res name over
       (withForce (clickForce p (mkPoint 50 0), mkPoint 50 0) b) hover drag).
Proof. destruct hover, drag; vm_compute; reflexivity. Qed.

(** ** What pointer events do to a constructed toy *)

(** X1: the state a constructed toy is in depends only on whether the last
    enter/leave event was an enter and on whether the last press, release or
    leave was a press: two event sequences that agree on both reach the same
    state, field for field. *)
Theorem X1_state_determined_by_last_events
    g factory res name over s0 evs1 evs2 :
  constructor g factory res name over initial = (Returned tt, s0) ->
  hoverAfter false evs1 = hoverAfter false evs2 ->
  dragAfter false evs1 = dragAfter false evs2 ->
  deliverAll evs1 s0 = deliverAll evs2 s0 /\
  exists s, deliverAll evs1 s0 = (Returned tt, s).
Proof.
  intros H Hh Hd.
  destruct (reachable_toyState _ _ _ _ _ _ H) as (b & _ & _ & E).
  rewrite !E, Hh, Hd. eauto.
Qed.

Lemma X1_witness :
  deliverAll [PointerEnter; PointerPress; PointerRelease; PointerLeave;
              PointerEnter] demoToy
  = deliverAll [PointerMove (mkPoint 2 3); PointerEnter] demoToy /\
  exists s, deliverAll [PointerEnter; PointerPress; PointerRelease;
                        PointerLeave; PointerEnter] demoToy = (Returned tt, s).
Proof.
  apply (X1_state_determined_by_last_events demoGlobals ballFactory
           "beachball" "ball" "over").
  - vm_compute. reflexivity.
  - reflexivity.
  - reflexivity.
Defined.

(** X2: the drag state is a function of the event history.  The toy is
    dragging exactly when the last press, release or leave was a press; an
    enter or a move never changes it, and a press starts a drag whether or
    not the pointer is over the toy.  The joint is in the world exactly
    then. *)
Theorem X2_drag_follows_history g factory res name over s0 evs :
  constructor g factory res name over initial = (Returned tt, s0) ->
  exists s, deliverAll evs s0 = (Returned tt, s) /\
    isDragging s = dragAfter false evs /\
    constraintActive s = dragAfter false evs /\
    worldJoints (simulation s)
    = (if dragAfter false evs then ["mousejoint"] else []).
Proof.
  intros H.
  destruct (reachable_toyState _ _ _ _ _ _ H) as (b & _ & _ & E).
  eexists. split; [apply E|]. done.
Qed.

Lemma X2_witness :
  exists s, deliverAll [PointerLeave; PointerPress; PointerEnter] demoToy
            = (Returned tt, s) /\
    isDragging s = true /\ constraintActive s = true /\
    worldJoints (simulation s) = ["mousejoint"].
Proof.
  apply (X2_drag_follows_history demoGlobals ballFactory
           "beachball" "ball" "over" demoToy
           [PointerLeave; PointerPress; PointerEnter]).
  vm_compute. reflexivity.
Defined.

(** X3: the bounding box of the toy always is the bounding box of the sprite
    on display: [setSprite] updates both, and nothing else touches either. *)
Theorem X3_bounding_box_follows_sprite g factory res name over s0 evs :
  constructor g factory res name over initial = (Returned tt, s0) ->
  exists s sprite, deliverAll evs s0 = (Returned tt, s) /\
    activeImage s = Some sprite /\
    boundingBox (this s) = Some (spriteBoundingBox sprite).
Proof.
  intros H.
  destruct (reachable_toyState _ _ _ _ _ _ H) as (b & _ & _ & E).
  eexists _, _. split; [apply E|]. done.
Qed.

Lemma X3_witness :
  exists s sprite, deliverAll [PointerEnter; PointerPress] demoToy
                   = (Returned tt, s) /\
    activeImage s = Some sprite /\
    boundingBox (this s) = Some (spriteBoundingBox sprite).
Proof.
  apply (X3_bounding_box_follows_sprite demoGlobals ballFactory
           "beachball" "ball" "over").
  vm_compute. reflexivity.
Defined.

(** X4: pointer events never move the toy, never apply a force to its body
    (no handler calls [clicked] or [applyForce]), and never change its scale,
    its sprites, its handlers, its root body or the set of its components. *)
Theorem X4_events_leave_the_rest_alone g factory res name over s0 evs :
  constructor g factory res name over initial = (Returned tt, s0) ->
  exists s, deliverAll evs s0 = (Returned tt, s) /\
    position (this s) = position (this s0) /\
    appliedForces s = appliedForces s0 /\
    renderScale (this s) = renderScale (this s0) /\
    bodyScale <$> theBody s = bodyScale <$> theBody s0 /\
    sprites (this s) = sprites (this s0) /\
    events (this s) = events (this s0) /\
    rootBody (this s) = rootBody (this s0) /\
    dom (components (this s)) = dom (components (this s0)).
Proof.
  intros H.
  destruct (reachable_toyState _ _ _ _ _ _ H) as (b & _ & -> & E).
  eexists. split; [apply E|].
  repeat split.
Qed.

Lemma X4_witness :
  exists s, deliverAll [PointerEnter; PointerPress; PointerMove (mkPoint 9 9);
                        PointerRelease] demoToy = (Returned tt, s) /\
    position (this s) = position (this demoToy) /\
    appliedForces s = appliedForces demoToy /\
    renderScale (this s) = renderScale (this demoToy) /\
    bodyScale <$> theBody s = bodyScale <$> theBody demoToy /\
    sprites (this s) = sprites (this demoToy) /\
    events (this s) = events (this demoToy) /\
    rootBody (this s) = rootBody (this demoToy) /\
    dom (components (this s)) = dom (components (this demoToy)).
Proof.
  apply (X4_events_leave_the_rest_alone demoGlobals ballFactory
           "beachball" "ball" "over").
  vm_compute. reflexivity.
Defined.

(** X5: a press followed by a release brings a toy that was not being
    dragged back to exactly the state it was in: the joint is taken out of
    the world again and nothing else has changed. *)
Theorem X5_press_release_round_trip g factory res name over s0 evs :
  constructor g factory res name over initial = (Returned tt, s0) ->
  dragAfter false evs = false ->
  exists s, deliverAll evs s0 = (Returned tt, s) /\
    deliverAll [PointerPress; PointerRelease] s = (Returned tt, s).
Proof.
  intros H Hd.
  destruct (reachable_toyState _ _ _ _ _ _ H) as (b & _ & _ & E).
  eexists. split; [apply E|].
  rewrite deliverAll_toyState, Hd. by destruct (hoverAfter false evs).
Qed.

Lemma X5_witness :
  exists s, deliverAll [PointerEnter] demoToy = (Returned tt, s) /\
    deliverAll [PointerPress; PointerRelease] s = (Returned tt, s).
Proof.
  apply (X5_press_release_round_trip demoGlobals ballFactory
           "beachball" "ball" "over").
  - vm_compute. reflexivity.
  - reflexivity.
Defined.

(** X6: an enter followed by a leave brings a toy that was neither hovered
    nor dragged back to exactly the state it was in; sprite and bounding box
    are those of the default image again. *)
Theorem X6_enter_leave_round_trip g factory res name over s0 evs :
  constructor g factory res name over initial = (Returned tt, s0) ->
  hoverAfter false evs = false ->
  dragAfter false evs = false ->
  exists s, deliverAll evs s0 = (Returned tt, s) /\
    deliverAll [PointerEnter; PointerLeave] s = (Returned tt, s).
Proof.
  intros H Hh Hd.
  destruct (reachable_toyState _ _ _ _ _ _ H) as (b & _ & _ & E).
  eexists. split; [apply E|].
  by rewrite deliverAll_toyState, Hh, Hd.
Qed.

Lemma X6_witness :
  exists s, deliverAll [PointerPress; PointerRelease] demoToy
            = (Returned tt, s) /\
    deliverAll [PointerEnter; PointerLeave] s = (Returned tt, s).
Proof.
  apply (X6_enter_leave_round_trip demoGlobals ballFactory
           "beachball" "ball" "over").
  - vm_compute. reflexivity.
  - reflexivity.
  - reflexivity.
Defined.

(** X7: an enter commutes with a press and with a release, and a move with
    every event, but a leave does not commute with a press: press-then-leave
    ends with no drag, leave-then-press with one. *)
Theorem X7_which_events_commute g factory res name over s0 evs :
  constructor g factory res name over initial = (Returned tt, s0) ->
  exists s, deliverAll evs s0 = (Returned tt, s) /\
    deliverAll [PointerEnter; PointerPress] s
    = deliverAll [PointerPress; PointerEnter] s /\
    deliverAll [PointerEnter; PointerRelease] s
    = deliverAll [PointerRelease; PointerEnter] s /\
    (forall p ev, deliverAll [PointerMove p; ev] s
                  = deliverAll [ev; PointerMove p] s) /\
    deliverAll [PointerPress; PointerLeave] s
    <> deliverAll [PointerLeave; PointerPress] s.
Proof.
  intros H.
  destruct (reachable_toyState _ _ _ _ _ _ H) as (b & _ & _ & E).
  eexists. split; [apply E|].
  rewrite !deliverAll_toyState. repeat split.
  - intros p ev. rewrite !deliverAll_toyState. by destruct ev.
  - intros D. apply (f_equal (fun r => isDragging (snd r))) in D.
    discriminate D.
Qed.

Lemma X7_witness :
  exists s, deliverAll [PointerEnter] demoToy = (Returned tt, s) /\
    deliverAll [PointerEnter; PointerPress] s
    = deliverAll [PointerPress; PointerEnter] s /\
    deliverAll [PointerEnter; PointerRelease] s
    = deliverAll [PointerRelease; PointerEnter] s /\
    (forall p ev, deliverAll [PointerMove p; ev] s
                  = deliverAll [ev; PointerMove p] s) /\
    deliverAll [PointerPress; PointerLeave] s
    <> deliverAll [PointerLeave; PointerPress] s.
Proof.
  apply (X7_which_events_commute demoGlobals ballFactory
           "beachball" "ball" "over").
  vm_compute. reflexivity.
Defined.

(** X8: [clicked] works in every state a constructed toy can reach; it
    records one force on the body and changes nothing else, so a click and a
    pointer event can be done in either order. *)
Theorem X8_click_commutes_with_events g factory res name over s0 evs p ev :
  constructor g factory res name over initial = (Returned tt, s0) ->
  exists s s', deliverAll evs s0 = (Returned tt, s) /\
    clicked p s = (Returned tt, s') /\
    appliedForces s'
    = (clickForce p (position (this s)), position (this s)) :: appliedForces s /\
    isDragging s' = isDragging s /\ activeImage s' = activeImage s /\
    theJoint s' = theJoint s /\ simulation s' = simulation s /\
    (clicked p ;; deliver ev) s = (deliver ev ;; clicked p) s.
Proof.
  intros H.
  destruct (reachable_toyState _ _ _ _ _ _ H) as (b & _ & _ & E).
  eexists _, _. split; [apply E|]. split; [apply clicked_toyState|].
  repeat split.
  rewrite (bind_returned _ _ _ _ _ (clicked_toyState _ _ _ _ _ _ _ p)).
  rewrite (bind_returned _ _ _ _ _ (deliver_toyState _ _ _ _ _ _ _ ev)).
  by rewrite deliver_toyState, clicked_toyState.
Qed.

Lemma X8_witness :
  exists s s', deliverAll [PointerEnter] demoToy = (Returned tt, s) /\
    clicked (mkPoint 55 10) s = (Returned tt, s') /\
    appliedForces s'
    = (clickForce (mkPoint 55 10) (position (this s)), position (this s))
      :: appliedForces s /\
    isDragging s' = isDragging s /\ activeImage s' = activeImage s /\
    theJoint s' = theJoint s /\ simulation s' = simulation s /\
    (clicked (mkPoint 55 10) ;; deliver PointerPress) s
    = (deliver PointerPress ;; clicked (mkPoint 55 10)) s.
Proof.
  apply (X8_click_commutes_with_events demoGlobals ballFactory
           "beachball" "ball" "over").
  vm_compute. reflexivity.
Defined.

(** ** Edge and error behaviour of the methods *)

(** X9: a constructed toy has exactly two sprites.  [setSprite] accepts the
    indices 0 and 1 in every reachable state; any larger index throws a
    [TypeError] (the sprite is [undefined]) before anything is changed. *)
Theorem X9_setSprite_bounds g factory res name over s0 evs i :
  constructor g factory res name over initial = (Returned tt, s0) ->
  exists s, deliverAll evs s0 = (Returned tt, s) /\
    length (sprites (this s)) = 2%nat /\
    ((i < 2)%nat ->
       exists s', setSprite i s = (Returned tt, s') /\
         activeImage s' = sprites (this s) !! i) /\
    ((2 <= i)%nat ->
       setSprite i s = (Thrown (TypeError "getBoundingBox"), s)).
Proof.
  intros H.
  destruct (reachable_spec _ _ _ _ _ _ evs H) as (s & E & R & Sp & _).
  exists s. split; [done|]. rewrite Sp. split; [done|]. split.
  - intros Hi.
    assert (exists sprite, sprites (this s) !! i = Some sprite) as [sprite Hs].
    { rewrite Sp. destruct i as [|[|i]]; simpl; eauto. lia. }
    destruct (setSprite_spec s i sprite R Hs) as (s' & E' & _ & A & _).
    exists s'. rewrite <- Sp, Hs. done.
  - intros Hi. unfold setSprite, bind, getThis. rewrite Sp.
    destruct i as [|[|i]]; [lia|lia|]. reflexivity.
Qed.

Lemma X9_witness :
  exists s, deliverAll [PointerEnter] demoToy = (Returned tt, s) /\
    length (sprites (this s)) = 2%nat /\
    ((2 < 2)%nat ->
       exists s', setSprite 2 s = (Returned tt, s') /\
         activeImage s' = sprites (this s) !! 2%nat) /\
    ((2 <= 2)%nat ->
       setSprite 2 s = (Thrown (TypeError "getBoundingBox"), s)).
Proof.
  apply (X9_setSprite_bounds demoGlobals ballFactory "beachball" "ball" "over").
  vm_compute. reflexivity.
Defined.

(** X10: [setSprite] is not atomic.  On an object that has the sprite but no
    body component called [physics], it throws a [TypeError], but only after
    it has already replaced the bounding box (line 151 runs before line
    152). *)
Theorem X10_setSprite_without_body s i sprite :
  sprites (this s) !! i = Some sprite ->
  theBody s = None ->
  setSprite i s
  = (Thrown (TypeError "getRenderComponent"),
     mkState (set_boundingBox (Some (spriteBoundingBox sprite)) (this s))
       (simulation s)).
Proof.
  intros Hs Hb. unfold setSprite. run_method. rewrite Hs. simpl.
  unfold theBody in Hb.
  destruct (components (this s) !! "physics") as [[]|]; try done.
Qed.

Lemma X10_witness :
  setSprite 0 spritesOnly
  = (Thrown (TypeError "getRenderComponent"),
     mkState (set_boundingBox
                (Some (spriteBoundingBox (mkSprite "beachball" "ball" (60, 60)%Q)))
                (this spritesOnly))
       (simulation spritesOnly)).
Proof.
  apply (X10_setSprite_without_body spritesOnly 0
           (mkSprite "beachball" "ball" (60, 60)%Q)); reflexivity.
Defined.

(** X11: without a body component called [physics], [applyForce] and
    [clicked] throw a [TypeError] and change nothing. *)
Theorem X11_force_without_body s amt loc p :
  theBody s = None ->
  applyForce amt loc s = (Thrown (TypeError "applyForce"), s) /\
  clicked p s = (Thrown (TypeError "applyForce"), s).
Proof.
  intros Hb. unfold clicked, applyForce. run_method.
  unfold theBody in Hb.
  destruct (components (this s) !! "physics") as [[]|]; done.
Qed.

Lemma X11_witness :
  applyForce (mkPoint 1 0) (mkPoint 0 0) initial
  = (Thrown (TypeError "applyForce"), initial) /\
  clicked (mkPoint 5 0) initial = (Thrown (TypeError "applyForce"), initial).
Proof.
  apply (X11_force_without_body initial (mkPoint 1 0) (mkPoint 0 0)
           (mkPoint 5 0)).
  reflexivity.
Defined.

(** X12: [mouseDown] on an object whose [mouseJoint] is still [null].  A
    call that changes the button state has to reach the joint, so it throws
    a [TypeError] and leaves [mouseButtonDown] and everything else as it
    was; a call that repeats the current state returns without touching the
    joint. *)
Theorem X12_mouseDown_without_joint s state :
  mouseJoint (this s) = None ->
  mouseDown state s
  = if xorb state (mouseButtonDown (this s))
    then (Thrown (TypeError (if state then "startSimulation"
                             else "stopSimulation")), s)
    else (Returned tt, s).
Proof.
  intros Hj. unfold mouseDown. run_method. rewrite Hj.
  destruct s as [[an el cs att rb sps rs mbd mj bb pos evs] w].
  by destruct state, mbd.
Qed.

Lemma X12_witness :
  mouseDown true initial
  = (Thrown (TypeError "startSimulation"), initial).
Proof.
  apply (X12_mouseDown_without_joint initial true). reflexivity.
Defined.

(** ** Construction *)


(** X14: a [Toy] that does not override [createPhysicalBody] cannot be
    constructed.  The hook of the base class adds nothing, so line 92 calls
    [setScale] on [null]; the [TypeError] leaves an object with its element
    and its render and mouse components, and without sprites, joint or
    handlers. *)
Theorem X14_base_class_is_abstract g res name over :
  constructor g Toy_createPhysicalBody res name over initial
  = (Thrown (TypeError "setScale"),
     mkState (mkToy "PhysicsToy" (Some "<div>") earlyComponents true None []
                (random g * 1 + 0.8)%Q false None None (mkPoint 0 0) [])
             (mkSim [])).
Proof. by apply constructor_none. Qed.

(** X15: what a successful construction sets up.  The scale is the random
    number plus 0.8, so it lies in [0.8, 1.8) when the random number lies in
    [0, 1), and the body is given the same scale; the toy is at (50, 0),
    shows its default sprite with that sprite's bounding box, is not being
    dragged, has its body as root body, and the joint is linked to that body
    and not in the world. *)
Theorem X15_constructor_postcondition g factory res name over b :
  factory "physics" (random g * 1 + 0.8)%Q = Returned (Some b) ->
  (0 <= random g)%Q -> (random g < 1)%Q ->
  exists s0, constructor g factory res name over initial = (Returned tt, s0) /\
    (0.8 <= renderScale (this s0))%Q /\ (renderScale (this s0) < 1.8)%Q /\
    theBody s0
    = Some (mkBody (bodyShape b) (renderScale (this s0))
              (Some (mkSpriteRender "draw" (Some (getSprite g res name))))
              (bodyForces b)) /\
    rootBody (this s0) = Some "physics" /\
    position (this s0) = mkPoint 50 0 /\
    sprites (this s0) = [getSprite g res name; getSprite g res over] /\
    boundingBox (this s0) = Some (spriteBoundingBox (getSprite g res name)) /\
    isDragging s0 = false /\
    theJoint s0 = Some (mkJoint "mousejoint" "physics" false None) /\
    worldJoints (simulation s0) = [] /\
    events (this s0) = toyEvents.
Proof.
  intros Hf H0 H1. rewrite (constructor_toyState _ _ _ _ _ _ Hf).
  eexists. split; [reflexivity|].
  split; [simpl; lra|]. split; [simpl; lra|]. done.
Qed.

Lemma X15_witness :
  exists s0, constructor demoGlobals ballFactory "beachball" "ball" "over" initial
             = (Returned tt, s0) /\
    (0.8 <= renderScale (this s0))%Q /\ (renderScale (this s0) < 1.8)%Q /\
    theBody s0
    = Some (mkBody "circle" (renderScale (this s0))
              (Some (mkSpriteRender "draw"
                       (Some (getSprite demoGlobals "beachball" "ball"))))
              []) /\
    rootBody (this s0) = Some "physics" /\
    position (this s0) = mkPoint 50 0 /\
    sprites (this s0) = [getSprite demoGlobals "beachball" "ball";
                         getSprite demoGlobals "beachball" "over"] /\
    boundingBox (this s0)
    = Some (spriteBoundingBox (getSprite demoGlobals "beachball" "ball")) /\
    isDragging s0 = false /\
    theJoint s0 = Some (mkJoint "mousejoint" "physics" false None) /\
    worldJoints (simulation s0) = [] /\
    events (this s0) = toyEvents.
Proof.
  apply (X15_constructor_postcondition demoGlobals ballFactory
           "beachball" "ball" "over" (mkBody "circle" 1 None [])).
  - reflexivity.
  - vm_compute. discriminate.
  - vm_compute. reflexivity.
Defined.

(** ** The force of a click *)

(** X16: the force [clicked] applies points from the toy towards the click:
    each component has the sign of the displacement, and the force is zero
    exactly when the click is at the position of the toy. *)
Theorem X16_click_force_direction s p b :
  theBody s = Some b ->
  exists s' f, clicked p s = (Returned tt, s') /\
    appliedForces s' = (f, position (this s)) :: bodyForces b /\
    ((0 < px f)%Q <-> (px (position (this s)) < px p)%Q) /\
    ((0 < py f)%Q <-> (py (position (this s)) < py p)%Q) /\
    ((px f == 0)%Q /\ (py f == 0)%Q <->
     (px p == px (position (this s)))%Q /\ (py p == py (position (this s)))%Q).
Proof.
  intros Hb.
  assert (components (this s) !! "physics" = Some (Body b)) as Hc.
  { unfold theBody in Hb.
    destruct (components (this s) !! "physics") as [[]|]; congruence. }
  unfold clicked, applyForce. run_method. rewrite Hc. simpl.
  eexists _, _. split; [reflexivity|]. split.
  - unfold appliedForces, theBody. simpl. by simplify_map_eq.
  - simpl. intuition lra.
Qed.

Lemma X16_witness :
  exists s' f, clicked (mkPoint 60 0) demoToy = (Returned tt, s') /\
    appliedForces s' = (f, position (this demoToy)) :: [] /\
    ((0 < px f)%Q <-> (px (position (this demoToy)) < 60)%Q) /\
    ((0 < py f)%Q <-> (py (position (this demoToy)) < 0)%Q) /\
    ((px f == 0)%Q /\ (py f == 0)%Q <->
     (60 == px (position (this demoToy)))%Q /\
     (0 == py (position (this demoToy)))%Q).
Proof.
  apply (X16_click_force_direction demoToy (mkPoint 60 0)
           (mkBody "circle" (random demoGlobals * 1 + 0.8)%Q
              (Some (mkSpriteRender "draw"
                       (Some (getSprite demoGlobals "beachball" "ball")))) [])).
  vm_compute. reflexivity.
Defined.
